(** * arkouda.array_api._io : the HDF5 forwarding functions

    [read_hdf5] and [lshdf] of [arkouda/array_api/_io.py] are two
    straight-line Python functions that only talk to collaborators:
    the messaging client [generic_msg], the built-in [print], the handle
    constructor [create_pdarray] and the wrapper [Array._new].  The one
    step [read_hdf5] takes before its first call is the f-string that
    builds the command, which the interpreter refuses for a rank of too
    many digits.

    The embedding keeps the collaborators outside the program.  A program
    is a finite tree of calls; an environment answers each call with a
    value or with an exception; running a program against an environment
    yields the list of calls that were made (with their answers), the
    result of the function (a value or a propagated exception) and the
    final state of the environment. *)

From Stdlib Require Import ZArith Ascii String DecimalString DecimalFacts
  DecimalPos DecimalN DecimalZ.
From stdpp Require Import base tactics option list strings gmap fin_maps.

#[local] Open Scope Z_scope.
#[local] Open Scope string_scope.

(** ** Formatting an [int] inside an f-string

    [f"...{rank}..."] formats [rank] with the empty format spec, which for
    a Python [int] is [str(rank)]: an optional minus sign followed by the
    digits of the magnitude, produced least significant digit first by
    repeated division by ten.  [PyInt.format_int] is the text of a
    conversion that succeeds; the interpreter's limit on the number of
    digits of a conversion, beyond which it raises instead, is
    [exceeds_str_digits] below. *)

Module PyInt.

(** [chr(ord("0") + d)] for a digit [d]. *)
Definition digit_char (d : Z) : ascii := ascii_of_nat (48 + Z.to_nat d).

(** The digits of [n >= 0], most significant first, in front of [acc].
    [fuel] bounds the number of digits that are produced. *)
Fixpoint digits_acc (fuel : nat) (n : Z) (acc : string) : string :=
  match fuel with
  | O => acc
  | S fuel' =>
      let acc' := String (digit_char (n mod 10)) acc in
      if (n <? 10)%Z then acc' else digits_acc fuel' (n / 10) acc'
  end.

(** A number below [2 ^ k] has at most [k] decimal digits. *)
Definition digit_budget (n : Z) : nat := S (Z.to_nat (Z.log2 n)).

Definition digits (n : Z) : string := digits_acc (digit_budget n) n "".

Definition format_int (z : Z) : string :=
  if (z <? 0)%Z then String "-" (digits (- z)) else digits z.

End PyInt.

(** The spec's wording, "the decimal representation of [rank]", read as
    the standard decimal numeral of the integer: the one Rocq's own
    number notation prints. *)
Definition decimal_representation (z : Z) : string :=
  NilZero.string_of_int (Z.to_int z).

(** Reading a numeral back. *)
Definition parse_int (s : string) : option Z :=
  Z.of_int <$> NilZero.int_of_string s.

(** The interpreter's limit on int-to-str conversions
    ([sys.get_int_max_str_digits()]: 4300 unless configured otherwise, 0
    for no limit, and no other value below 640 is accepted).  With a limit
    set, converting an int whose magnitude has more digits than the limit
    raises [ValueError]; the sign is not counted. *)
Definition exceeds_str_digits (max_str_digits : nat) (z : Z) : bool :=
  match max_str_digits with
  | O => false
  | _ => (max_str_digits <? String.length (PyInt.digits (Z.abs z)))%nat
  end.

(** The same in terms of the magnitude: no limit, or fewer than
    [10 ^ max_str_digits]. *)
Definition within_str_digits (max_str_digits : nat) (z : Z) : Prop :=
  max_str_digits = 0%nat ∨ Z.abs z < 10 ^ Z.of_nat max_str_digits.

(** ** Calls, programs and runs *)

Section Embedding.

(** Python objects and exceptions are opaque to this module. *)
Context {value exn : Type}.

(** The calls the module makes. *)
Inductive call : Type :=
| GenericMsg (cmd : string) (args : gmap string string)
    (* arkouda.client.generic_msg(cmd=..., args=...) *)
| Print (x : value)
    (* builtins.print(x) *)
| CreatePdarray (repMsg : value)
    (* arkouda.pdarrayclass.create_pdarray(repMsg) *)
| ArrayNew (x : value).
    (* Array._new(x) of ._array_object *)

(** A call returns a value or raises. *)
Inductive result (A : Type) : Type :=
| Returned (a : A)
| Raised (e : exn).
#[global] Arguments Returned {A} a.
#[global] Arguments Raised {A} e.

(** A program: return, make a call and continue with its value, or raise
    (an operation of the interpreter itself that fails).  There is no
    handler node: the module has no [try] statement. *)
Inductive prog (A : Type) : Type :=
| Ret (a : A)
| Call (c : call) (k : value → prog A)
| Throw (e : exn).
#[global] Arguments Ret {A} a.
#[global] Arguments Call {A} c k.
#[global] Arguments Throw {A} e.

Fixpoint prog_bind {A B} (f : A → prog B) (m : prog A) : prog B :=
  match m with
  | Ret a => f a
  | Call c k => Call c (λ v, prog_bind f (k v))
  | Throw e => Throw e
  end.

#[global] Instance prog_mret : MRet prog := λ A a, Ret a.
#[global] Instance prog_mbind : MBind prog := λ A B f m, prog_bind f m.

Definition generic_msg (cmd : string) (args : gmap string string)
  : prog value := Call (GenericMsg cmd args) Ret.
Definition print (x : value) : prog value := Call (Print x) Ret.
Definition create_pdarray (repMsg : value) : prog value :=
  Call (CreatePdarray repMsg) Ret.
Definition Array_new (x : value) : prog value := Call (ArrayNew x) Ret.

(** *** The two functions of the module *)

(** [read_hdf5] where the conversion of [rank] in the f-string succeeds:
    under an interpreter without a limit on int-to-str conversions, and
    under any interpreter for a rank within its limit
    ([read_hdf5_limited_within]). *)
Definition read_hdf5 (filename dataset : string) (rank : Z) : prog value :=
  repMsg ← generic_msg
    ("readSingleHdfArray" +:+ PyInt.format_int rank +:+ "D")
    {[ "dset" := dataset; "filename" := filename ]};
  print repMsg;;
  x ← create_pdarray repMsg;
  Array_new x.

Definition lshdf (filename : string) : prog value :=
  repMsg ← generic_msg "lshdf" {[ "filename" := filename ]};
  mret repMsg.

(** [f"{z}"] under an interpreter whose limit is [max_str_digits] and whose
    [ValueError] for a conversion beyond it is [too_many_digits]. *)
Definition fstring_int (max_str_digits : nat) (too_many_digits : exn)
    (z : Z) : prog string :=
  if exceeds_str_digits max_str_digits z then Throw too_many_digits
  else mret (PyInt.format_int z).

(** [read_hdf5] under such an interpreter.  The f-string is evaluated
    first, before the messaging client is called. *)
Definition read_hdf5_limited (max_str_digits : nat) (too_many_digits : exn)
    (filename dataset : string) (rank : Z) : prog value :=
  numeral ← fstring_int max_str_digits too_many_digits rank;
  repMsg ← generic_msg
    ("readSingleHdfArray" +:+ numeral +:+ "D")
    {[ "dset" := dataset; "filename" := filename ]};
  print repMsg;;
  x ← create_pdarray repMsg;
  Array_new x.

(** *** Running a program *)

Definition event : Type := call * result value.

Record behaviour (W A : Type) : Type := Behaviour {
  trace : list event;   (* the calls made, in order, with their answers *)
  res : result A;       (* what the function does: return or raise *)
  final : W             (* the environment afterwards *)
}.
#[global] Arguments Behaviour {W A} _ _ _.
#[global] Arguments trace {W A} _.
#[global] Arguments res {W A} _.
#[global] Arguments final {W A} _.

Section Run.
(** The environment: a state and the answer to each call in a state. *)
Context {W : Type} (handle : call → W → result value * W).

(** A call that raises ends the run: nothing in the module catches. *)
Fixpoint run {A} (p : prog A) (w : W) : behaviour W A :=
  match p with
  | Ret a => Behaviour [] (Returned a) w
  | Call c k =>
      match handle c w with
      | (Returned v, w') =>
          let b := run (k v) w' in
          Behaviour ((c, Returned v) :: trace b) (res b) (final b)
      | (Raised e, w') => Behaviour [(c, Raised e)] (Raised e) w'
      end
  | Throw e => Behaviour [] (Raised e) w
  end.
End Run.

(** What was submitted to the messaging client. *)
Definition submitted (t : list event) : list (string * gmap string string) :=
  omap (λ ev, match fst ev with
              | GenericMsg cmd args => Some (cmd, args)
              | _ => None
              end) t.

(** What was handed to the console. *)
Definition printed (t : list event) : list value :=
  omap (λ ev, match fst ev with Print x => Some x | _ => None end) t.

End Embedding.

#[global] Arguments call : clear implicits.
#[global] Arguments result : clear implicits.
#[global] Arguments prog : clear implicits.
#[global] Arguments event : clear implicits.
#[global] Arguments behaviour : clear implicits.


(** ** A concrete session

    Python values and exceptions as far as this module meets them. *)

Inductive pyval : Type :=
| PyNone
| PyStr (s : string)
| PyCreated (name : string) (ndim : Z)
    (* the server's reply to a successful read: the descriptor of the new
       server-side array *)
| PyPdarray (name : string) (ndim : Z)
    (* arkouda.pdarrayclass.pdarray *)
| PyArray (_array : pyval).
    (* arkouda.array_api.Array, holding its pdarray in [_array] *)

Inductive pyexn : Type :=
| RuntimeError (msg : string)
| ValueError (msg : string).

(** The state of a session: the HDF5 files the server can see (file name to
    dataset name to number of dimensions), the number of arrays created so
    far, and [sys.stdout] ([None] once it has been closed). *)
Record session : Type := Session {
  files : gmap string (gmap string Z);
  created : nat;
  stdout : option (list pyval)
}.

Definition fresh_name (s : session) : string :=
  "id_" +:+ decimal_representation (Z.of_nat (created s)).

(** Modelled from the spec: the messaging client and the server behind it,
    missing from the sources.  The command [readSingleHdfArray<N>D] loads a
    dataset of rank [N] from a file and replies with a descriptor usable to
    construct a handle; [lshdf] enumerates the datasets of a file; a
    missing file, a missing dataset, a rank mismatch and an unknown command
    are failures raised by the messaging client. *)
Definition server (cmd : string) (args : gmap string string) (s : session)
  : result pyexn pyval * session :=
  match args !! "filename" with
  | None => (Raised (RuntimeError "missing argument"), s)
  | Some filename =>
      match files s !! filename with
      | None => (Raised (RuntimeError "file not found"), s)
      | Some datasets =>
          if decide (cmd = "lshdf") then
            (Returned (PyStr (String.concat ","
               (fst <$> map_to_list datasets))), s)
          else
            match args !! "dset" with
            | None => (Raised (RuntimeError "missing argument"), s)
            | Some dset =>
                match datasets !! dset with
                | None => (Raised (RuntimeError "dataset not found"), s)
                | Some ndim =>
                    if decide (cmd = "readSingleHdfArray"
                                 +:+ decimal_representation ndim +:+ "D")
                    then (Returned (PyCreated (fresh_name s) ndim),
                          Session (files s) (S (created s)) (stdout s))
                    else (Raised (RuntimeError "rank mismatch"), s)
                end
            end
      end
  end.

(** Modelled from the spec: the handle constructor, missing from the
    sources.  It turns the descriptor of a reply into a handle and fails on
    any other reply. *)
Definition pdarray_of_reply (repMsg : pyval) : result pyexn pyval :=
  match repMsg with
  | PyCreated name ndim => Returned (PyPdarray name ndim)
  | _ => Raised (ValueError "malformed reply")
  end.

(** Modelled from the spec: the [Array] class of [._array_object], missing
    from the sources.  The reply is wrapped "into a client-visible array
    object": [Array._new(x)] is a new [Array] that holds [x]. *)
Definition array_of (x : pyval) : result pyexn pyval := Returned (PyArray x).

(** The number of dimensions of the array behind an [Array]. *)
Definition ndim_of (a : pyval) : option Z :=
  match a with
  | PyArray (PyPdarray _ ndim) => Some ndim
  | _ => None
  end.

(** The session as an environment.  [print] appends to [sys.stdout] and
    returns [None], or raises [ValueError] when the stream is closed. *)
Definition session_handle (c : call pyval) (s : session)
  : result pyexn pyval * session :=
  match c with
  | GenericMsg cmd args => server cmd args s
  | Print x =>
      match stdout s with
      | Some out =>
          (Returned PyNone,
           Session (files s) (created s) (Some (out ++ [x])%list))
      | None => (Raised (ValueError "I/O operation on closed file."), s)
      end
  | CreatePdarray repMsg => (pdarray_of_reply repMsg, s)
  | ArrayNew x => (array_of x, s)
  end.

(** A session with one file holding a two-dimensional and a
    one-dimensional dataset. *)
Definition demo_files : gmap string (gmap string Z) :=
  {[ "data.h5" := {[ "temps" := 2; "ids" := 1 ]} ]}.

Definition demo_session : session := Session demo_files 0 (Some []).

(** The same session after [sys.stdout.close()]. *)
Definition closed_session : session := Session demo_files 0 None.

(** The demo session with something already on the console. *)
Definition later_session : session := Session demo_files 0 (Some [PyNone]).

(** The collaborator a call goes to. *)
Inductive callee : Type :=
| ToGenericMsg
| ToPrint
| ToCreatePdarray
| ToArrayNew.

Definition callee_of {value : Type} (c : call value) : callee :=
  match c with
  | GenericMsg _ _ => ToGenericMsg
  | Print _ => ToPrint
  | CreatePdarray _ => ToCreatePdarray
  | ArrayNew _ => ToArrayNew
  end.

(** The collaborators a run went to, in order. *)
Definition callees {value exn : Type} (t : list (event value exn))
  : list callee := (λ ev, callee_of (fst ev)) <$> t.

(** The interpreter's default limit, and its [ValueError] for a conversion
    beyond a limit. *)
Definition default_max_str_digits : nat := 4300.

Definition too_many_digits (max_str_digits : nat) : pyexn :=
  ValueError
    ("Exceeds the limit ("
     +:+ decimal_representation (Z.of_nat max_str_digits)
     +:+ " digits) for integer string conversion; "
     +:+ "use sys.set_int_max_str_digits() to increase the limit").


(** Proof-side view of [digits_acc]: the same digits as a little-endian
    [Decimal.uint]. *)
Definition digit_cons (d : Z) (u : Decimal.uint) : Decimal.uint :=
  match d with
  | 0 => Decimal.D0 u | 1 => Decimal.D1 u | 2 => Decimal.D2 u
  | 3 => Decimal.D3 u | 4 => Decimal.D4 u | 5 => Decimal.D5 u
  | 6 => Decimal.D6 u | 7 => Decimal.D7 u | 8 => Decimal.D8 u
  | _ => Decimal.D9 u
  end.

Fixpoint little_digits (fuel : nat) (n : Z) : Decimal.uint :=
  match fuel with
  | O => Decimal.Nil
  | S fuel' =>
      digit_cons (n mod 10)
        (if (n <? 10)%Z then Decimal.Nil else little_digits fuel' (n / 10))
  end.

(** ** Integer formatting *)

Lemma digit_cases (d : Z) :
  0 <= d < 10 →
  d = 0 ∨ d = 1 ∨ d = 2 ∨ d = 3 ∨ d = 4 ∨ d = 5 ∨ d = 6 ∨ d = 7 ∨ d = 8 ∨ d = 9.
Proof. lia. Qed.

Ltac each_digit d H :=
  destruct (digit_cases d H) as [->|[->|[->|[->|[->|[->|[->|[->|[->| ->]]]]]]]]].

Lemma string_of_digit_cons (d : Z) (u : Decimal.uint) :
  0 <= d < 10 →
  NilEmpty.string_of_uint (digit_cons d u)
  = String (PyInt.digit_char d) (NilEmpty.string_of_uint u).
Proof. intros H. each_digit d H; reflexivity. Qed.

Lemma revapp_digit_cons (d : Z) (l acc : Decimal.uint) :
  Decimal.revapp (digit_cons d l) acc = Decimal.revapp l (digit_cons d acc).
Proof. unfold digit_cons. destruct d as [|p|p]; try reflexivity.
  do 4 (destruct p as [p|p|]; try reflexivity).
Qed.

Lemma of_lu_digit_cons (d : Z) (l : Decimal.uint) :
  0 <= d < 10 →
  DecimalPos.Unsigned.of_lu (digit_cons d l)
  = (Z.to_N d + 10 * DecimalPos.Unsigned.of_lu l)%N.
Proof. intros H. each_digit d H; reflexivity. Qed.

Lemma nzhead_digit_cons (d : Z) (u : Decimal.uint) :
  0 < d < 10 → Decimal.nzhead (digit_cons d u) = digit_cons d u.
Proof.
  intros H. assert (H' : 0 <= d < 10) by lia.
  each_digit d H'; try reflexivity. lia.
Qed.

Lemma digit_cons_nonnil (d : Z) (u : Decimal.uint) : digit_cons d u ≠ Decimal.Nil.
Proof. unfold digit_cons. destruct d as [|p|p]; try done.
  do 4 (destruct p as [p|p|]; try done).
Qed.

(** [digits_acc] writes the little-endian digits in reverse. *)
Lemma digits_acc_revapp (fuel : nat) : ∀ (n : Z) (acc : Decimal.uint),
  PyInt.digits_acc fuel n (NilEmpty.string_of_uint acc)
  = NilEmpty.string_of_uint (Decimal.revapp (little_digits fuel n) acc).
Proof.
  induction fuel as [|fuel IH]; intros n acc; [reflexivity|].
  cbn [PyInt.digits_acc little_digits].
  assert (Hm : 0 <= n mod 10 < 10) by (apply Z.mod_pos_bound; lia).
  rewrite revapp_digit_cons, <- (string_of_digit_cons _ _ Hm).
  destruct (n <? 10)%Z; [reflexivity|]. apply IH.
Qed.

(** With enough fuel the digits denote the number. *)
Lemma of_lu_little_digits (fuel : nat) : ∀ n : Z,
  0 <= n < 2 ^ Z.of_nat fuel →
  DecimalPos.Unsigned.of_lu (little_digits fuel n) = Z.to_N n.
Proof.
  induction fuel as [|fuel IH]; intros n Hn.
  - change (2 ^ Z.of_nat 0) with 1 in Hn. replace n with 0 by lia. reflexivity.
  - cbn [little_digits].
    assert (Hm : 0 <= n mod 10 < 10) by (apply Z.mod_pos_bound; lia).
    rewrite (of_lu_digit_cons _ _ Hm).
    destruct (Z.ltb_spec n 10) as [Hlt|Hge].
    + rewrite Z.mod_small by lia. cbn. lia.
    + rewrite IH.
      * pose proof (Z.div_mod n 10 ltac:(lia)) as Hdm.
        assert (0 <= n / 10) by (apply Z.div_pos; lia). lia.
      * rewrite Nat2Z.inj_succ, Z.pow_succ_r in Hn by lia.
        split; [apply Z.div_pos; lia|].
        apply Z.div_lt_upper_bound; lia.
Qed.

(** The most significant digit of a positive number is not zero. *)
Lemma nzhead_little_digits (fuel : nat) : ∀ (n : Z) (acc : Decimal.uint),
  0 < n < 2 ^ Z.of_nat fuel →
  Decimal.nzhead (Decimal.revapp (little_digits fuel n) acc)
  = Decimal.revapp (little_digits fuel n) acc
  ∧ Decimal.revapp (little_digits fuel n) acc ≠ Decimal.Nil.
Proof.
  induction fuel as [|fuel IH]; intros n acc Hn.
  - change (2 ^ Z.of_nat 0) with 1 in Hn. lia.
  - cbn [little_digits]. rewrite revapp_digit_cons.
    destruct (Z.ltb_spec n 10) as [Hlt|Hge].
    + rewrite Z.mod_small by lia. cbn [Decimal.revapp]. split.
      * apply nzhead_digit_cons. lia.
      * apply digit_cons_nonnil.
    + apply IH.
      rewrite Nat2Z.inj_succ, Z.pow_succ_r in Hn by lia.
      split.
      * apply Z.div_str_pos. lia.
      * apply Z.div_lt_upper_bound; lia.
Qed.

Lemma digit_budget_enough (n : Z) :
  0 < n → 0 < n < 2 ^ Z.of_nat (PyInt.digit_budget n).
Proof.
  intros Hn. unfold PyInt.digit_budget.
  pose proof (Z.log2_nonneg n).
  rewrite Nat2Z.inj_succ, Z2Nat.id by lia.
  pose proof (Z.log2_spec n Hn). lia.
Qed.

(** The digits of a positive number are its standard decimal numeral. *)
Lemma digits_pos (p : positive) :
  PyInt.digits (Z.pos p) = NilEmpty.string_of_uint (Pos.to_uint p).
Proof.
  unfold PyInt.digits.
  change "" with (NilEmpty.string_of_uint Decimal.Nil).
  rewrite digits_acc_revapp. f_equal.
  pose proof (digit_budget_enough (Z.pos p) ltac:(lia)) as Hb.
  set (l := little_digits (PyInt.digit_budget (Z.pos p)) (Z.pos p)).
  destruct (nzhead_little_digits _ _ Decimal.Nil Hb) as [Hnz Hnil].
  fold l in Hnz, Hnil.
  change (Decimal.revapp l Decimal.Nil) with (Decimal.rev l) in *.
  assert (Hval : Pos.of_uint (Decimal.rev l) = N.pos p).
  { rewrite DecimalPos.Unsigned.of_lu_rev. unfold l.
    rewrite of_lu_little_digits by lia. reflexivity. }
  pose proof (DecimalPos.Unsigned.to_of (Decimal.rev l)) as Hto.
  rewrite Hval in Hto. cbn [N.to_uint] in Hto.
  rewrite Hto, unorm_nzhead by (rewrite Hnz; exact Hnil).
  symmetry. exact Hnz.
Qed.

(** The f-string formatting of an [int] is its decimal representation. *)
Lemma format_int_decimal (z : Z) :
  PyInt.format_int z = decimal_representation z.
Proof.
  unfold PyInt.format_int, decimal_representation.
  destruct z as [|p|p]; cbn [Z.ltb Z.compare Z.opp Z.to_int NilZero.string_of_int].
  - reflexivity.
  - etrans; [apply digits_pos|].
    pose proof (DecimalPos.Unsigned.to_uint_nonnil p).
    destruct (Pos.to_uint p); done.
  - f_equal. etrans; [apply digits_pos|].
    pose proof (DecimalPos.Unsigned.to_uint_nonnil p).
    destruct (Pos.to_uint p); done.
Qed.

(** Reading the numeral back gives the integer. *)
Lemma parse_decimal_representation (z : Z) :
  parse_int (decimal_representation z) = Some z.
Proof.
  unfold parse_int, decimal_representation.
  rewrite NilZero.isi.
  - cbn. f_equal. apply DecimalZ.of_to.
  - destruct z as [|p|p]; cbn; try done.
    intros [= H]. by apply (DecimalPos.Unsigned.to_uint_nonnil p).
  - destruct z as [|p|p]; cbn; try done.
    intros [= H]. by apply (DecimalPos.Unsigned.to_uint_nonnil p).
Qed.

Lemma decimal_representation_inj (a b : Z) :
  decimal_representation a = decimal_representation b → a = b.
Proof.
  intros H. apply (f_equal parse_int) in H.
  rewrite !parse_decimal_representation in H. congruence.
Qed.

Lemma string_length_app (s t : string) :
  String.length (s +:+ t) = (String.length s + String.length t)%nat.
Proof.
  induction s as [|a s IH]; [done|].
  change (S (String.length (s +:+ t))
          = S (String.length s + String.length t)%nat).
  by rewrite IH.
Qed.

Lemma string_app_inv_tail (u : string) : ∀ s t : string,
  s +:+ u = t +:+ u → s = t.
Proof.
  induction s as [|a s IH]; intros [|b t] H.
  - done.
  - apply (f_equal String.length) in H.
    change (String.length u = S (String.length (t +:+ u))) in H.
    rewrite string_length_app in H. lia.
  - apply (f_equal String.length) in H.
    change (S (String.length (s +:+ u)) = String.length u) in H.
    rewrite string_length_app in H. lia.
  - change (String a (s +:+ u) = String b (t +:+ u)) in H.
    injection H as -> H. f_equal. by apply IH.
Qed.

(** Distinct ranks select distinct commands. *)
Lemma read_command_inj (a b : Z) :
  "readSingleHdfArray" +:+ decimal_representation a +:+ "D"
  = "readSingleHdfArray" +:+ decimal_representation b +:+ "D" →
  a = b.
Proof.
  intros H. apply (inj _) in H. apply string_app_inv_tail in H.
  by apply decimal_representation_inj.
Qed.

(** *** The number of digits *)

(** A magnitude written with [k] digits lies below [10 ^ k], and from two
    digits on at or above [10 ^ (k - 1)]. *)
Lemma digits_acc_length (fuel : nat) : ∀ (n : Z) (acc : string),
  0 <= n < 2 ^ Z.of_nat (S fuel) →
  ∃ k : nat,
    String.length (PyInt.digits_acc (S fuel) n acc)
    = (S k + String.length acc)%nat
    ∧ n < 10 ^ Z.of_nat (S k)
    ∧ (k = 0%nat ∨ 10 ^ Z.of_nat k <= n).
Proof.
  induction fuel as [|fuel IH]; intros n acc Hn.
  - exists 0%nat. change (2 ^ Z.of_nat 1) with 2 in Hn.
    cbn [PyInt.digits_acc].
    destruct (Z.ltb_spec n 10) as [_|Hge]; [|lia].
    split; [reflexivity|]. split; [|by left].
    change (10 ^ Z.of_nat 1) with 10. lia.
  - change (PyInt.digits_acc (S (S fuel)) n acc)
      with (let acc' := String (PyInt.digit_char (n mod 10)) acc in
            if (n <? 10)%Z then acc'
            else PyInt.digits_acc (S fuel) (n / 10) acc').
    cbv zeta. destruct (Z.ltb_spec n 10) as [Hlt|Hge].
    + exists 0%nat. split; [reflexivity|]. split; [|by left].
      change (10 ^ Z.of_nat 1) with 10. lia.
    + rewrite (Nat2Z.inj_succ (S fuel)), Z.pow_succ_r in Hn by lia.
      destruct (IH (n / 10) (String (PyInt.digit_char (n mod 10)) acc))
        as (k & Hlen & Hlt & Hge').
      { split; [apply Z.div_pos; lia|]. apply Z.div_lt_upper_bound; lia. }
      exists (S k). rewrite Hlen. split; [cbn; lia|].
      pose proof (Z.div_mod n 10 ltac:(lia)) as Hdm.
      pose proof (Z.mod_pos_bound n 10 ltac:(lia)) as Hm.
      rewrite (Nat2Z.inj_succ (S k)), Z.pow_succ_r by lia.
      split; [lia|]. right.
      rewrite (Nat2Z.inj_succ k), Z.pow_succ_r by lia.
      destruct Hge' as [->|Hge']; [change (10 ^ Z.of_nat 0) with 1; lia|lia].
Qed.

Lemma digits_length_le (n : Z) (m : nat) :
  0 <= n → (1 ≤ m)%nat →
  (String.length (PyInt.digits n) ≤ m)%nat ↔ n < 10 ^ Z.of_nat m.
Proof.
  intros Hn Hm. unfold PyInt.digits, PyInt.digit_budget.
  destruct (digits_acc_length (Z.to_nat (Z.log2 n)) n "")
    as (k & Hlen & Hlt & Hge).
  { split; [done|]. rewrite Nat2Z.inj_succ, Z2Nat.id by apply Z.log2_nonneg.
    destruct (Z.eq_dec n 0) as [->|Hnz]; [done|].
    apply Z.log2_spec. lia. }
  rewrite Hlen. cbn [String.length]. split.
  - intros Hk. eapply Z.lt_le_trans; [exact Hlt|].
    apply Z.pow_le_mono_r; lia.
  - intros Hlt'. destruct (decide (S k ≤ m)%nat) as [|Hgt]; [lia|].
    destruct Hge as [->|Hge]; [lia|].
    assert (10 ^ Z.of_nat m <= 10 ^ Z.of_nat k)
      by (apply Z.pow_le_mono_r; lia).
    lia.
Qed.

(** The limit in terms of the magnitude. *)
Lemma exceeds_str_digits_false (max_str_digits : nat) (z : Z) :
  exceeds_str_digits max_str_digits z = false
  ↔ within_str_digits max_str_digits z.
Proof.
  unfold exceeds_str_digits, within_str_digits.
  destruct max_str_digits as [|m]; [by intuition|].
  rewrite Nat.ltb_ge, digits_length_le by lia.
  intuition lia.
Qed.

Lemma exceeds_str_digits_true (max_str_digits : nat) (z : Z) :
  exceeds_str_digits max_str_digits z = true
  ↔ ¬ within_str_digits max_str_digits z.
Proof.
  rewrite <- exceeds_str_digits_false.
  destruct (exceeds_str_digits max_str_digits z); by intuition.
Qed.

(** The first magnitude with one digit too many, and its negation, do not
    pass. *)
Lemma within_str_digits_pow (max_str_digits : nat) :
  max_str_digits ≠ 0%nat →
  ¬ within_str_digits max_str_digits (10 ^ Z.of_nat max_str_digits)
  ∧ ¬ within_str_digits max_str_digits (- 10 ^ Z.of_nat max_str_digits).
Proof.
  intros Hm.
  assert (0 < 10 ^ Z.of_nat max_str_digits) by (apply Z.pow_pos_nonneg; lia).
  unfold within_str_digits. split; intros [H0|Hlt]; try done.
  - rewrite Z.abs_eq in Hlt by lia. lia.
  - rewrite Z.abs_opp, Z.abs_eq in Hlt by lia. lia.
Qed.

(** One-digit magnitudes pass every limit. *)
Lemma within_str_digits_small (max_str_digits : nat) (z : Z) :
  Z.abs z < 10 → within_str_digits max_str_digits z.
Proof.
  intros Hz. destruct max_str_digits as [|m]; [by left|]. right.
  eapply Z.lt_le_trans; [exact Hz|].
  change 10 with (10 ^ 1) at 1. apply Z.pow_le_mono_r; lia.
Qed.

(** ** Runs of the two functions, for every environment *)

Section Runs.
Context {value exn W : Type}.
Context (handle : call value → W → result exn value * W).

Lemma run_lshdf (filename : string) (w : W) :
  run handle (lshdf filename) w =
  let c := GenericMsg "lshdf" {[ "filename" := filename ]} in
  Behaviour [(c, fst (handle c w))] (fst (handle c w)) (snd (handle c w)).
Proof.
  cbn. destruct (handle _ w) as [[v|e] w1]; reflexivity.
Qed.

(** The five ways a call of [read_hdf5] can go: each collaborator in turn
    may raise, which ends the call with that exception; otherwise the call
    returns what [Array._new] returned. *)
Lemma run_read_hdf5 (filename dataset : string) (rank : Z) (w : W) :
  run handle (read_hdf5 filename dataset rank) w =
  let c := GenericMsg
             ("readSingleHdfArray" +:+ PyInt.format_int rank +:+ "D")
             {[ "dset" := dataset; "filename" := filename ]} in
  match handle c w with
  | (Raised e, w1) => Behaviour [(c, Raised e)] (Raised e) w1
  | (Returned repMsg, w1) =>
      match handle (Print repMsg) w1 with
      | (Raised e, w2) =>
          Behaviour [(c, Returned repMsg); (Print repMsg, Raised e)]
            (Raised e) w2
      | (Returned none, w2) =>
          match handle (CreatePdarray repMsg) w2 with
          | (Raised e, w3) =>
              Behaviour [(c, Returned repMsg); (Print repMsg, Returned none);
                         (CreatePdarray repMsg, Raised e)] (Raised e) w3
          | (Returned x, w3) =>
              match handle (ArrayNew x) w3 with
              | (Raised e, w4) =>
                  Behaviour [(c, Returned repMsg);
                             (Print repMsg, Returned none);
                             (CreatePdarray repMsg, Returned x);
                             (ArrayNew x, Raised e)] (Raised e) w4
              | (Returned a, w4) =>
                  Behaviour [(c, Returned repMsg);
                             (Print repMsg, Returned none);
                             (CreatePdarray repMsg, Returned x);
                             (ArrayNew x, Returned a)] (Returned a) w4
              end
          end
      end
  end.
Proof.
  cbn. destruct (handle _ w) as [[repMsg|e] w1]; [|reflexivity].
  cbn. destruct (handle _ w1) as [[none|e] w2]; [|reflexivity].
  cbn. destruct (handle _ w2) as [[x|e] w3]; [|reflexivity].
  cbn. destruct (handle _ w3) as [[a|e] w4]; reflexivity.
Qed.

(** Within the limit the f-string yields the numeral and the call goes on
    as [read_hdf5]. *)
Lemma read_hdf5_limited_within (max_str_digits : nat) (too_many_digits : exn)
    (filename dataset : string) (rank : Z) :
  within_str_digits max_str_digits rank →
  read_hdf5_limited max_str_digits too_many_digits filename dataset rank
  = read_hdf5 (value := value) filename dataset rank.
Proof.
  intros H. apply exceeds_str_digits_false in H.
  unfold read_hdf5_limited, fstring_int. by rewrite H.
Qed.

(** Beyond the limit the f-string raises, and no call is made. *)
Lemma run_read_hdf5_limited_beyond (max_str_digits : nat)
    (too_many_digits : exn) (filename dataset : string) (rank : Z) (w : W) :
  ¬ within_str_digits max_str_digits rank →
  run handle
    (read_hdf5_limited max_str_digits too_many_digits filename dataset rank) w
  = Behaviour [] (Raised too_many_digits) w.
Proof.
  intros H. apply exceeds_str_digits_true in H.
  unfold read_hdf5_limited, fstring_int. by rewrite H.
Qed.

Lemma within_str_digits_cases (max_str_digits : nat) (z : Z) :
  within_str_digits max_str_digits z ∨ ¬ within_str_digits max_str_digits z.
Proof.
  destruct (exceeds_str_digits max_str_digits z) eqn:E.
  - right. by apply exceeds_str_digits_true.
  - left. by apply exceeds_str_digits_false.
Qed.

End Runs.

(** Case analysis on the answers of the environment, one call at a time. *)
Ltac answer :=
  match goal with
  | |- context [match ?h ?c ?w with _ => _ end] =>
      let E := fresh "E" in
      destruct (h c w) as [[?v|?err] ?w] eqn:E; cbn [trace res final fst snd]
  end.

Ltac read_hdf5_cases := rewrite !run_read_hdf5; cbv zeta; repeat answer.

Section Claims.
Context {value exn W : Type}.
Context (handle : call value → W → result exn value * W).

Lemma submitted_read_hdf5 (filename dataset : string) (rank : Z) (w : W) :
  submitted (trace (run handle (read_hdf5 filename dataset rank) w))
  = [("readSingleHdfArray" +:+ PyInt.format_int rank +:+ "D",
      {[ "dset" := dataset; "filename" := filename ]})].
Proof. read_hdf5_cases; reflexivity. Qed.

(** C1 (amended): when a call of [read_hdf5] returns [a], it has made
    exactly four calls, in this order: the messaging client, once; [print]
    with the raw reply; the handle constructor, once, with the raw reply;
    and [Array._new] with the value the constructor returned.  [a] is the
    value [Array._new] returned, with nothing further applied. *)
Theorem read_hdf5_returns_wrapped_handle
    (filename dataset : string) (rank : Z) (w : W) (a : value) :
  res (run handle (read_hdf5 filename dataset rank) w) = Returned a →
  ∃ repMsg none x : value,
    trace (run handle (read_hdf5 filename dataset rank) w)
    = [ (GenericMsg
           ("readSingleHdfArray" +:+ PyInt.format_int rank +:+ "D")
           {[ "dset" := dataset; "filename" := filename ]},
         Returned repMsg);
        (Print repMsg, Returned none);
        (CreatePdarray repMsg, Returned x);
        (ArrayNew x, Returned a) ].
Proof. read_hdf5_cases; intros [= <-]. eauto. Qed.

(** C2 (amended): for a rank in 1, 2, 3, ... that the interpreter's limit
    on int-to-str conversions admits (no limit, or a rank below
    [10 ^ max_str_digits]), the one command [read_hdf5] submits is
    "readSingleHdfArray", then the decimal representation of the rank, then
    "D"; that representation reads back as the rank.  For a rank beyond the
    limit the f-string raises and nothing is submitted. *)
Theorem read_hdf5_command
    (max_str_digits : nat) (too_many_digits : exn)
    (filename dataset : string) (rank : Z) (w : W) :
  1 <= rank →
  (within_str_digits max_str_digits rank →
   (submitted
      (trace (run handle
                (read_hdf5_limited max_str_digits too_many_digits
                   filename dataset rank) w))).*1
   = ["readSingleHdfArray" +:+ decimal_representation rank +:+ "D"]
   ∧ parse_int (decimal_representation rank) = Some rank)
  ∧ (¬ within_str_digits max_str_digits rank →
     trace (run handle
              (read_hdf5_limited max_str_digits too_many_digits
                 filename dataset rank) w) = []
     ∧ res (run handle
              (read_hdf5_limited max_str_digits too_many_digits
                 filename dataset rank) w) = Raised too_many_digits).
Proof.
  intros _. split.
  - intros Hin. rewrite read_hdf5_limited_within by done.
    rewrite submitted_read_hdf5, format_int_decimal.
    split; [reflexivity|apply parse_decimal_representation].
  - intros Hout. by rewrite run_read_hdf5_limited_beyond.
Qed.


(** C4: [lshdf] makes one call, the messaging client with command "lshdf"
    and arguments [{"filename": filename}], and its result is that call's
    answer as it is: the reply when the client returns, the exception when
    it raises. *)
Theorem lshdf_forwards (filename : string) (w : W) :
  trace (run handle (lshdf filename) w)
  = [ (GenericMsg "lshdf" {[ "filename" := filename ]},
       fst (handle (GenericMsg "lshdf" {[ "filename" := filename ]}) w)) ]
  ∧ res (run handle (lshdf filename) w)
    = fst (handle (GenericMsg "lshdf" {[ "filename" := filename ]}) w)
  ∧ final (run handle (lshdf filename) w)
    = snd (handle (GenericMsg "lshdf" {[ "filename" := filename ]}) w).
Proof. by rewrite run_lshdf. Qed.

(** C5 (amended): [read_hdf5] raises [e] exactly when the f-string raises
    [e] (the rank is beyond the interpreter's limit on int-to-str
    conversions; no call has been made then), or one of the calls it makes
    raises [e], and that call is then the last one made; [lshdf] raises [e]
    exactly when the messaging client raises [e].  Neither function
    validates or raises on its own and the exception is passed on as it
    is. *)
Theorem failures_propagate
    (max_str_digits : nat) (too_many_digits : exn)
    (filename dataset : string) (rank : Z) (w : W) (e : exn) :
  (res (run handle
          (read_hdf5_limited max_str_digits too_many_digits
             filename dataset rank) w) = Raised e
   ↔ (¬ within_str_digits max_str_digits rank ∧ e = too_many_digits)
     ∨ (within_str_digits max_str_digits rank
        ∧ ∃ c : call value,
            last (trace (run handle
                           (read_hdf5_limited max_str_digits too_many_digits
                              filename dataset rank) w))
            = Some (c, Raised e)))
  ∧ (¬ within_str_digits max_str_digits rank ↔
     trace (run handle
              (read_hdf5_limited max_str_digits too_many_digits
                 filename dataset rank) w) = [])
  ∧ ((∃ c : call value,
        (c, Raised e)
          ∈ trace (run handle
                     (read_hdf5_limited max_str_digits too_many_digits
                        filename dataset rank) w))
     → res (run handle
              (read_hdf5_limited max_str_digits too_many_digits
                 filename dataset rank) w) = Raised e)
  ∧ (res (run handle (lshdf filename) w) = Raised e
     ↔ fst (handle (GenericMsg "lshdf" {[ "filename" := filename ]}) w)
       = Raised e).
Proof.
  destruct (within_str_digits_cases max_str_digits rank) as [Hin|Hout].
  - rewrite read_hdf5_limited_within by done.
    split; [|split; [|split]].
    + read_hdf5_cases;
        (split; [intros [= ->]; right; eauto
                |intros [[Hout _]|[_ [c H]]]; [done|cbn in H; congruence]]).
    + read_hdf5_cases; (split; [done|by intros [=]]).
    + read_hdf5_cases;
        (intros [c H]; rewrite !elem_of_cons, elem_of_nil in H;
         intuition congruence).
    + by rewrite run_lshdf.
  - rewrite run_read_hdf5_limited_beyond by done. cbn [trace res].
    split; [|split; [|split]].
    + split; [intros [= ->]; by left|].
      intros [[_ ->]|[Hin _]]; done.
    + done.
    + intros [c H]. by apply elem_of_nil in H.
    + by rewrite run_lshdf.
Qed.


(** C7 (amended): for every integer rank that the interpreter's limit on
    int-to-str conversions admits, zero and negative ones included (no
    limit, or a magnitude below [10 ^ max_str_digits]), the call of the
    messaging client is made, with the command obtained by putting the
    decimal representation of the rank into the template and with the same
    arguments whatever the rank; ranks 0 and -3 pass every limit.  For a
    rank beyond the limit the f-string raises and no call is made. *)
Theorem read_hdf5_any_rank
    (max_str_digits : nat) (too_many_digits : exn)
    (filename dataset : string) (rank : Z) (w : W) :
  (within_str_digits max_str_digits rank →
   submitted
     (trace (run handle
               (read_hdf5_limited max_str_digits too_many_digits
                  filename dataset rank) w))
   = [ ("readSingleHdfArray" +:+ decimal_representation rank +:+ "D",
        {[ "dset" := dataset; "filename" := filename ]}) ]
   ∧ parse_int (decimal_representation rank) = Some rank
   ∧ (∀ (rank' : Z) (w' : W),
        within_str_digits max_str_digits rank' →
        (submitted
           (trace (run handle
                     (read_hdf5_limited max_str_digits too_many_digits
                        filename dataset rank') w'))).*2
        = (submitted
             (trace (run handle
                       (read_hdf5_limited max_str_digits too_many_digits
                          filename dataset rank) w))).*2))
  ∧ (submitted
       (trace (run handle
                 (read_hdf5_limited max_str_digits too_many_digits
                    filename dataset 0) w))).*1
    = ["readSingleHdfArray0D"]
  ∧ (submitted
       (trace (run handle
                 (read_hdf5_limited max_str_digits too_many_digits
                    filename dataset (-3)) w))).*1
    = ["readSingleHdfArray-3D"]
  ∧ (¬ within_str_digits max_str_digits rank →
     trace (run handle
              (read_hdf5_limited max_str_digits too_many_digits
                 filename dataset rank) w) = []
     ∧ res (run handle
              (read_hdf5_limited max_str_digits too_many_digits
                 filename dataset rank) w) = Raised too_many_digits).
Proof.
  split; [|split; [|split]].
  - intros Hin. rewrite !read_hdf5_limited_within by done.
    rewrite !submitted_read_hdf5, format_int_decimal.
    split; [reflexivity|]. split; [apply parse_decimal_representation|].
    intros rank' w' Hin'. rewrite read_hdf5_limited_within by done.
    by rewrite submitted_read_hdf5.
  - rewrite read_hdf5_limited_within
      by (by apply within_str_digits_small).
    by rewrite submitted_read_hdf5.
  - rewrite read_hdf5_limited_within
      by (by apply within_str_digits_small).
    by rewrite submitted_read_hdf5.
  - intros Hout. by rewrite run_read_hdf5_limited_beyond.
Qed.

(** C9: [lshdf] never calls [print]: nothing is handed to the console,
    the messaging client is the only call made, and the environment is left
    as that call left it. *)
Theorem lshdf_prints_nothing (filename : string) (w : W) :
  printed (trace (run handle (lshdf filename) w)) = []
  ∧ (∀ (x : value) (o : result exn value),
       (Print x, o) ∉ trace (run handle (lshdf filename) w))
  ∧ length (trace (run handle (lshdf filename) w)) = 1%nat
  ∧ final (run handle (lshdf filename) w)
    = snd (handle (GenericMsg "lshdf" {[ "filename" := filename ]}) w).
Proof.
  rewrite run_lshdf; cbv zeta; cbn [trace final].
  repeat split. intros x o. rewrite list_elem_of_singleton. by intros [=].
Qed.

End Claims.

Section TwoRuns.
Context {value exn W1 W2 : Type}.
Context (handle1 : call value → W1 → result exn value * W1).
Context (handle2 : call value → W2 → result exn value * W2).

(** C10: two calls of [read_hdf5] with the same rank submit the same
    command, whatever the file names, the dataset names and the
    environments.  With a handle constructor and an [Array] wrapper that
    answer as functions of their argument, two calls of [read_hdf5] on the
    same arguments that get the same reply and return, return the same
    value; two calls of [lshdf] on the same file name that get the same
    answer from the messaging client have the same result. *)
Theorem results_determined
    (filename dataset filename' dataset' : string) (rank : Z)
    (w1 : W1) (w2 : W2) :
  (∀ x s1 s2, fst (handle1 (CreatePdarray x) s1)
              = fst (handle2 (CreatePdarray x) s2)) →
  (∀ x s1 s2, fst (handle1 (ArrayNew x) s1) = fst (handle2 (ArrayNew x) s2)) →
  (submitted (trace (run handle1 (read_hdf5 filename dataset rank) w1))).*1
  = (submitted (trace (run handle2 (read_hdf5 filename' dataset' rank) w2))).*1
  ∧ (fst (handle1 (GenericMsg
             ("readSingleHdfArray" +:+ PyInt.format_int rank +:+ "D")
             {[ "dset" := dataset; "filename" := filename ]}) w1)
     = fst (handle2 (GenericMsg
             ("readSingleHdfArray" +:+ PyInt.format_int rank +:+ "D")
             {[ "dset" := dataset; "filename" := filename ]}) w2) →
     ∀ a1 a2 : value,
       res (run handle1 (read_hdf5 filename dataset rank) w1) = Returned a1 →
       res (run handle2 (read_hdf5 filename dataset rank) w2) = Returned a2 →
       a1 = a2)
  ∧ (fst (handle1 (GenericMsg "lshdf" {[ "filename" := filename ]}) w1)
     = fst (handle2 (GenericMsg "lshdf" {[ "filename" := filename ]}) w2) →
     res (run handle1 (lshdf filename) w1)
     = res (run handle2 (lshdf filename) w2)).
Proof.
  intros Hmk Hwrap. split; [|split].
  - by rewrite !submitted_read_hdf5.
  - rewrite !run_read_hdf5; cbv zeta.
    destruct (handle1 _ w1) as [[r1|e1] s1]; destruct (handle2 _ w2) as [[r2|e2] s2];
      cbn [fst]; intros [= <-] a1 a2; try (by intros [= ]); try (by intros _ [= ]).
    destruct (handle1 (Print r1) s1) as [[n1|e1] t1];
      destruct (handle2 (Print r1) s2) as [[n2|e2] t2];
      try (by intros [= ]); try (by intros _ [= ]).
    pose proof (Hmk r1 t1 t2) as Hx.
    destruct (handle1 (CreatePdarray r1) t1) as [[x1|e1] u1];
      destruct (handle2 (CreatePdarray r1) t2) as [[x2|e2] u2];
      cbn [fst] in Hx; try discriminate Hx;
      try (by intros [= ]); try (by intros _ [= ]).
    injection Hx as <-.
    pose proof (Hwrap x1 u1 u2) as Ha.
    destruct (handle1 (ArrayNew x1) u1) as [[b1|e1] v1];
      destruct (handle2 (ArrayNew x1) u2) as [[b2|e2] v2];
      cbn [fst] in Ha; try discriminate Ha;
      try (by intros [= ]); try (by intros _ [= ]).
    intros [= <-] [= <-]. congruence.
  - by rewrite !run_lshdf.
Qed.

End TwoRuns.

(** ** The session environment *)

(** A successful read replies with the descriptor of an array of the rank
    the command names. *)
Lemma server_read_reply (cmd : string) (args : gmap string string)
    (s s' : session) (reply : pyval) :
  cmd ≠ "lshdf" →
  server cmd args s = (Returned reply, s') →
  ∃ (filename dset : string) (datasets : gmap string Z) (ndim : Z),
    args !! "filename" = Some filename
    ∧ args !! "dset" = Some dset
    ∧ files s !! filename = Some datasets
    ∧ datasets !! dset = Some ndim
    ∧ cmd = "readSingleHdfArray" +:+ decimal_representation ndim +:+ "D"
    ∧ reply = PyCreated (fresh_name s) ndim.
Proof.
  intros Hcmd. unfold server.
  destruct (args !! "filename") as [filename|] eqn:Hfn; [|by intros [=]].
  destruct (files s !! filename) as [datasets|] eqn:Hf; [|by intros [=]].
  case_decide; [done|].
  destruct (args !! "dset") as [dset|] eqn:Hds; [|by intros [=]].
  destruct (datasets !! dset) as [ndim|] eqn:Hd; [|by intros [=]].
  case_decide as Hc; [|by intros [=]].
  intros [= <- <-]. by exists filename, dset, datasets, ndim.
Qed.

Lemma read_command_not_lshdf (rank : Z) :
  "readSingleHdfArray" +:+ PyInt.format_int rank +:+ "D" ≠ "lshdf".
Proof. done. Qed.

(** C8: in a session, a call of [read_hdf5] that returns, returns an
    [Array] holding a [pdarray] whose number of dimensions is the rank
    argument, and the dataset read has that rank. *)
Theorem read_hdf5_result_has_rank
    (filename dataset : string) (rank : Z) (s : session) (a : pyval) :
  res (run session_handle (read_hdf5 filename dataset rank) s) = Returned a →
  ndim_of a = Some rank
  ∧ (∃ name : string, a = PyArray (PyPdarray name rank))
  ∧ files s !! filename ≫= (.!! dataset) = Some rank.
Proof.
  rewrite run_read_hdf5; cbv zeta.
  destruct (session_handle (GenericMsg _ _) s) as [[r|e] s1] eqn:E1;
    [|by intros [=]].
  cbn [session_handle] in E1.
  apply server_read_reply in E1
    as (fn & ds & dss & n & Hfn & Hds & Hf & Hd & Hc & ->);
    [|apply read_command_not_lshdf].
  rewrite format_int_decimal in Hc. apply read_command_inj in Hc as <-.
  rewrite lookup_insert_ne, lookup_singleton_eq in Hfn by done.
  rewrite lookup_insert_eq in Hds.
  injection Hfn as <-. injection Hds as <-.
  cbn [session_handle pdarray_of_reply].
  destruct (stdout s1); [|by intros [=]].
  cbn [res]. intros [= <-].
  rewrite Hf. cbn. rewrite Hd. eauto.
Qed.

(** ** The claims at a concrete session *)

(** C1 as stated fails: in the demo session the handle constructor returns
    the [pdarray] "id_0", and [read_hdf5] returns another object, the
    [Array] that holds it. *)
Lemma read_hdf5_result_is_not_constructor_value :
  res (run session_handle (read_hdf5 "data.h5" "temps" 2) demo_session)
  = Returned (PyArray (PyPdarray "id_0" 2))
  ∧ trace (run session_handle (read_hdf5 "data.h5" "temps" 2) demo_session)
    = [ (GenericMsg "readSingleHdfArray2D"
           {[ "dset" := "temps"; "filename" := "data.h5" ]},
         Returned (PyCreated "id_0" 2));
        (Print (PyCreated "id_0" 2), Returned PyNone);
        (CreatePdarray (PyCreated "id_0" 2), Returned (PyPdarray "id_0" 2));
        (ArrayNew (PyPdarray "id_0" 2),
         Returned (PyArray (PyPdarray "id_0" 2))) ]
  ∧ PyArray (PyPdarray "id_0" 2) ≠ PyPdarray "id_0" 2.
Proof. repeat split; [vm_compute; reflexivity..|discriminate]. Qed.

(** The amended C1 applies to the same run. *)
Lemma read_hdf5_returns_wrapped_handle_witness :
  res (run session_handle (read_hdf5 "data.h5" "temps" 2) demo_session)
  = Returned (PyArray (PyPdarray "id_0" 2))
  ∧ ∃ repMsg none x : pyval,
      trace (run session_handle (read_hdf5 "data.h5" "temps" 2) demo_session)
      = [ (GenericMsg ("readSingleHdfArray" +:+ PyInt.format_int 2 +:+ "D")
             {[ "dset" := "temps"; "filename" := "data.h5" ]},
           Returned repMsg);
          (Print repMsg, Returned none);
          (CreatePdarray repMsg, Returned x);
          (ArrayNew x, Returned (PyArray (PyPdarray "id_0" 2))) ].
Proof.
  split; [vm_compute; reflexivity|].
  apply (read_hdf5_returns_wrapped_handle session_handle
           "data.h5" "temps" 2 demo_session).
  vm_compute. reflexivity.
Defined.

(** C2 at rank 2 under the default limit. *)
Lemma read_hdf5_command_witness :
  1 <= 2
  ∧ within_str_digits default_max_str_digits 2
  ∧ (submitted
       (trace (run session_handle
                 (read_hdf5_limited default_max_str_digits
                    (too_many_digits default_max_str_digits)
                    "data.h5" "temps" 2)
                 demo_session))).*1
    = ["readSingleHdfArray" +:+ decimal_representation 2 +:+ "D"]
  ∧ parse_int (decimal_representation 2) = Some 2.
Proof.
  assert (Hin : within_str_digits default_max_str_digits 2)
    by (apply within_str_digits_small; lia).
  split; [lia|]. split; [exact Hin|].
  exact (proj1 (read_hdf5_command session_handle default_max_str_digits
                  (too_many_digits default_max_str_digits)
                  "data.h5" "temps" 2 demo_session ltac:(lia)) Hin).
Defined.

(** C2 as stated fails: under the default limit of 4300 digits the rank
    [10 ^ 4300], which has 4301 digits, makes the f-string raise
    [ValueError], and no command is submitted. *)
Lemma read_hdf5_command_beyond_limit :
  1 <= 10 ^ 4300
  ∧ submitted
      (trace (run session_handle
                (read_hdf5_limited default_max_str_digits
                   (too_many_digits default_max_str_digits)
                   "data.h5" "temps" (10 ^ 4300))
                demo_session))
    = []
  ∧ res (run session_handle
           (read_hdf5_limited default_max_str_digits
              (too_many_digits default_max_str_digits)
              "data.h5" "temps" (10 ^ 4300))
           demo_session)
    = Raised
        (ValueError
           ("Exceeds the limit (4300 digits) for integer string conversion; "
            +:+ "use sys.set_int_max_str_digits() to increase the limit")).
Proof.
  assert (Hout : ¬ within_str_digits default_max_str_digits (10 ^ 4300))
    by exact (proj1 (within_str_digits_pow default_max_str_digits
                       ltac:(discriminate))).
  rewrite run_read_hdf5_limited_beyond by exact Hout.
  split; [|split; reflexivity].
  apply Z.lt_le_incl, (Z.lt_le_trans _ (10 ^ 1)); [done|].
  by apply Z.pow_le_mono_r.
Qed.

(** C7 as stated fails: under the default limit the negative rank
    [- 10 ^ 4300] makes the f-string raise [ValueError], and the messaging
    client is not called. *)
Lemma read_hdf5_any_rank_beyond_limit :
  trace (run session_handle
           (read_hdf5_limited default_max_str_digits
              (too_many_digits default_max_str_digits)
              "data.h5" "temps" (- 10 ^ 4300))
           demo_session)
  = []
  ∧ res (run session_handle
           (read_hdf5_limited default_max_str_digits
              (too_many_digits default_max_str_digits)
              "data.h5" "temps" (- 10 ^ 4300))
           demo_session)
    = Raised
        (ValueError
           ("Exceeds the limit (4300 digits) for integer string conversion; "
            +:+ "use sys.set_int_max_str_digits() to increase the limit")).
Proof.
  assert (Hout : ¬ within_str_digits default_max_str_digits (- 10 ^ 4300))
    by exact (proj2 (within_str_digits_pow default_max_str_digits
                       ltac:(discriminate))).
  rewrite run_read_hdf5_limited_beyond by exact Hout.
  split; reflexivity.
Qed.

(** C7 at rank -3 under the default limit. *)
Lemma read_hdf5_any_rank_witness :
  within_str_digits default_max_str_digits (-3)
  ∧ submitted
      (trace (run session_handle
                (read_hdf5_limited default_max_str_digits
                   (too_many_digits default_max_str_digits)
                   "data.h5" "temps" (-3))
                demo_session))
    = [ ("readSingleHdfArray" +:+ decimal_representation (-3) +:+ "D",
         {[ "dset" := "temps"; "filename" := "data.h5" ]}) ].
Proof.
  assert (Hin : within_str_digits default_max_str_digits (-3))
    by (apply within_str_digits_small; lia).
  split; [exact Hin|].
  exact (proj1 (proj1 (read_hdf5_any_rank session_handle
                         default_max_str_digits
                         (too_many_digits default_max_str_digits)
                         "data.h5" "temps" (-3) demo_session) Hin)).
Defined.

(** C5 as stated fails: after [sys.stdout.close()] the messaging client
    returns its reply, the handle constructor is never reached, and
    [read_hdf5] raises the [ValueError] of [print]. *)
Lemma read_hdf5_raises_from_print :
  res (run session_handle (read_hdf5 "data.h5" "temps" 2) closed_session)
  = Raised (ValueError "I/O operation on closed file.")
  ∧ trace (run session_handle (read_hdf5 "data.h5" "temps" 2) closed_session)
    = [ (GenericMsg "readSingleHdfArray2D"
           {[ "dset" := "temps"; "filename" := "data.h5" ]},
         Returned (PyCreated "id_0" 2));
        (Print (PyCreated "id_0" 2),
         Raised (ValueError "I/O operation on closed file.")) ].
Proof. split; vm_compute; reflexivity. Qed.


(** C8 in the demo session. *)
Lemma read_hdf5_result_has_rank_witness :
  res (run session_handle (read_hdf5 "data.h5" "temps" 2) demo_session)
  = Returned (PyArray (PyPdarray "id_0" 2))
  ∧ ndim_of (PyArray (PyPdarray "id_0" 2)) = Some 2
  ∧ (∃ name : string,
       PyArray (PyPdarray "id_0" 2) = PyArray (PyPdarray name 2))
  ∧ files demo_session !! "data.h5" ≫= (.!! "temps") = Some 2.
Proof.
  split; [vm_compute; reflexivity|].
  apply (read_hdf5_result_has_rank "data.h5" "temps" 2 demo_session).
  vm_compute. reflexivity.
Defined.

(** C10 for two sessions that differ in what is on the console. *)
Lemma results_determined_witness :
  (submitted
     (trace (run session_handle (read_hdf5 "data.h5" "temps" 2) demo_session))).*1
  = (submitted
       (trace (run session_handle (read_hdf5 "other.h5" "ids" 2) later_session))).*1
  ∧ (∃ a1 a2 : pyval,
       res (run session_handle (read_hdf5 "data.h5" "temps" 2) demo_session)
       = Returned a1
       ∧ res (run session_handle (read_hdf5 "data.h5" "temps" 2) later_session)
         = Returned a2
       ∧ a1 = a2)
  ∧ res (run session_handle (lshdf "data.h5") demo_session)
    = res (run session_handle (lshdf "data.h5") later_session).
Proof.
  destruct (results_determined session_handle session_handle
              "data.h5" "temps" "other.h5" "ids" 2 demo_session later_session)
    as (Hcmd & Hread & Hls).
  - intros x s1 s2. reflexivity.
  - intros x s1 s2. reflexivity.
  - split; [exact Hcmd|]. split.
    + exists (PyArray (PyPdarray "id_0" 2)), (PyArray (PyPdarray "id_0" 2)).
      assert (H1 : res (run session_handle (read_hdf5 "data.h5" "temps" 2)
                          demo_session)
                   = Returned (PyArray (PyPdarray "id_0" 2)))
        by (vm_compute; reflexivity).
      assert (H2 : res (run session_handle (read_hdf5 "data.h5" "temps" 2)
                          later_session)
                   = Returned (PyArray (PyPdarray "id_0" 2)))
        by (vm_compute; reflexivity).
      split; [exact H1|]. split; [exact H2|].
      apply (Hread ltac:(vm_compute; reflexivity) _ _ H1 H2).
    + apply Hls. vm_compute. reflexivity.
Defined.

(** ** Further properties of the two functions *)

Section Order.
Context {value exn W : Type}.
Context (handle : call value → W → result exn value * W).

Lemma submitted_lshdf (filename : string) (w : W) :
  submitted (trace (run handle (lshdf filename) w))
  = [("lshdf", {[ "filename" := filename ]})].
Proof. by rewrite run_lshdf. Qed.

(** X1: a call of [read_hdf5] prints nothing exactly when it gets no
    reply: the f-string raises (the rank is beyond the interpreter's limit
    on int-to-str conversions) or the messaging client raises.  When the
    client raises it is the only collaborator called, its exception is the
    result and the environment is left as the client left it. *)
Theorem read_hdf5_silent_iff_no_reply
    (max_str_digits : nat) (too_many_digits : exn)
    (filename dataset : string) (rank : Z) (w : W) :
  (printed
     (trace (run handle
               (read_hdf5_limited max_str_digits too_many_digits
                  filename dataset rank) w)) = []
   ↔ ¬ within_str_digits max_str_digits rank
     ∨ ∃ e : exn,
         fst (handle (GenericMsg
                ("readSingleHdfArray" +:+ PyInt.format_int rank +:+ "D")
                {[ "dset" := dataset; "filename" := filename ]}) w)
         = Raised e)
  ∧ ∀ e : exn,
      within_str_digits max_str_digits rank →
      fst (handle (GenericMsg
             ("readSingleHdfArray" +:+ PyInt.format_int rank +:+ "D")
             {[ "dset" := dataset; "filename" := filename ]}) w)
      = Raised e →
      callees
        (trace (run handle
                  (read_hdf5_limited max_str_digits too_many_digits
                     filename dataset rank) w))
      = [ToGenericMsg]
      ∧ res (run handle
               (read_hdf5_limited max_str_digits too_many_digits
                  filename dataset rank) w) = Raised e
      ∧ final (run handle
                 (read_hdf5_limited max_str_digits too_many_digits
                    filename dataset rank) w)
        = snd (handle (GenericMsg
                 ("readSingleHdfArray" +:+ PyInt.format_int rank +:+ "D")
                 {[ "dset" := dataset; "filename" := filename ]}) w).
Proof.
  destruct (within_str_digits_cases max_str_digits rank) as [Hin|Hout].
  - rewrite !read_hdf5_limited_within by done.
    rewrite !run_read_hdf5; cbv zeta.
    destruct (handle (GenericMsg _ _) w) as [[repMsg|e0] w1]; cbn [fst snd].
    + split; [|by intros e _ [=]].
      repeat answer;
        (split; [by intros [=] | by intros [Hout|[e [=]]]]).
    + split; [split; [by eauto|done]|]. by intros e _ [= <-].
  - rewrite run_read_hdf5_limited_beyond by done.
    split; [split; [by left|done]|]. by intros e Hin.
Qed.

(** X2: the collaborators are called in the fixed order messaging client,
    [print], handle constructor, [Array._new], each at most once; no call
    at all is made exactly when the rank is beyond the interpreter's limit
    on int-to-str conversions; the run stops at the first call that raises,
    so every call but the last one returned. *)
Theorem read_hdf5_call_order
    (max_str_digits : nat) (too_many_digits : exn)
    (filename dataset : string) (rank : Z) (w : W) :
  callees
    (trace (run handle
              (read_hdf5_limited max_str_digits too_many_digits
                 filename dataset rank) w))
    `prefix_of` [ToGenericMsg; ToPrint; ToCreatePdarray; ToArrayNew]
  ∧ (trace (run handle
              (read_hdf5_limited max_str_digits too_many_digits
                 filename dataset rank) w) = []
     ↔ ¬ within_str_digits max_str_digits rank)
  ∧ ∀ (i : nat) (c : call value) (o : result exn value),
      trace (run handle
               (read_hdf5_limited max_str_digits too_many_digits
                  filename dataset rank) w) !! i
      = Some (c, o) →
      (S i < length
               (trace (run handle
                         (read_hdf5_limited max_str_digits too_many_digits
                            filename dataset rank) w)))%nat →
      ∃ v : value, o = Returned v.
Proof.
  destruct (within_str_digits_cases max_str_digits rank) as [Hin|Hout].
  - rewrite !read_hdf5_limited_within by done.
    read_hdf5_cases; (split; [eexists; reflexivity|]);
      (split; [split; [by intros [=]|done]|]);
      intros [|[|[|[|i]]]] c o Hi Hlt; cbn in Hi, Hlt;
      try lia; injection Hi as <- <-; eauto.
  - rewrite run_read_hdf5_limited_beyond by done. cbn [trace].
    split; [by eexists|]. split; [done|]. by intros i c o [=].
Qed.


End Order.

Section Requests.
Context {value exn W1 W2 : Type}.
Context (handle1 : call value → W1 → result exn value * W1).
Context (handle2 : call value → W2 → result exn value * W2).


(** X4: the request of [lshdf] determines the file name, and it is never
    the request of a [read_hdf5], whatever the rank. *)
Theorem lshdf_request_distinct
    (filename filename' dataset : string) (rank : Z) (w1 : W1) (w2 : W2) :
  (submitted (trace (run handle1 (lshdf filename) w1))
   = submitted (trace (run handle2 (lshdf filename') w2)) →
   filename = filename')
  ∧ submitted (trace (run handle1 (lshdf filename) w1))
    ≠ submitted (trace (run handle2 (read_hdf5 filename' dataset rank) w2)).
Proof.
  rewrite !submitted_lshdf, submitted_read_hdf5. split.
  - intros H. apply (f_equal head) in H. cbn [head] in H.
    pose proof (f_equal (λ o, snd <$> o) H) as Hargs.
    cbn [fmap option_fmap option_map snd] in Hargs.
    apply (inj Some) in Hargs.
    pose proof (f_equal (.!! "filename") Hargs) as Hf.
    rewrite !lookup_singleton_eq in Hf. by injection Hf.
  - intros H. apply (f_equal head) in H. cbn [head] in H.
    pose proof (f_equal (λ o, fst <$> o) H) as Hcmd.
    cbn [fmap option_fmap option_map fst] in Hcmd.
    apply (inj Some) in Hcmd.
    by apply (read_command_not_lshdf rank).
Qed.

End Requests.

(** X1 for a file the server does not have: the client raises, nothing is
    printed and the console is untouched. *)
Lemma read_hdf5_silent_iff_no_reply_witness :
  within_str_digits default_max_str_digits 2
  ∧ fst (session_handle
           (GenericMsg ("readSingleHdfArray" +:+ PyInt.format_int 2 +:+ "D")
              {[ "dset" := "temps"; "filename" := "nope.h5" ]}) demo_session)
    = Raised (RuntimeError "file not found")
  ∧ callees
      (trace (run session_handle
                (read_hdf5_limited default_max_str_digits
                   (too_many_digits default_max_str_digits)
                   "nope.h5" "temps" 2)
                demo_session))
    = [ToGenericMsg]
  ∧ res (run session_handle
           (read_hdf5_limited default_max_str_digits
              (too_many_digits default_max_str_digits)
              "nope.h5" "temps" 2)
           demo_session)
    = Raised (RuntimeError "file not found")
  ∧ final (run session_handle
             (read_hdf5_limited default_max_str_digits
                (too_many_digits default_max_str_digits)
                "nope.h5" "temps" 2)
             demo_session)
    = snd (session_handle
             (GenericMsg
                ("readSingleHdfArray" +:+ PyInt.format_int 2 +:+ "D")
                {[ "dset" := "temps"; "filename" := "nope.h5" ]})
             demo_session).
Proof.
  assert (Hin : within_str_digits default_max_str_digits 2)
    by (apply within_str_digits_small; lia).
  assert (E : fst (session_handle
                     (GenericMsg
                        ("readSingleHdfArray" +:+ PyInt.format_int 2 +:+ "D")
                        {[ "dset" := "temps"; "filename" := "nope.h5" ]})
                     demo_session)
              = Raised (RuntimeError "file not found"))
    by (vm_compute; reflexivity).
  split; [exact Hin|]. split; [exact E|].
  exact (proj2 (read_hdf5_silent_iff_no_reply session_handle
                  default_max_str_digits
                  (too_many_digits default_max_str_digits)
                  "nope.h5" "temps" 2 demo_session) _ Hin E).
Defined.

(** X2 once [sys.stdout] is closed: the run stops at [print], and the call
    before it, the messaging client, returned. *)
Lemma read_hdf5_call_order_witness :
  trace (run session_handle
           (read_hdf5_limited default_max_str_digits
              (too_many_digits default_max_str_digits) "data.h5" "temps" 2)
           closed_session)
    !! 0%nat
  = Some (GenericMsg "readSingleHdfArray2D"
            {[ "dset" := "temps"; "filename" := "data.h5" ]},
          Returned (PyCreated "id_0" 2))
  ∧ (1 < length
           (trace (run session_handle
                     (read_hdf5_limited default_max_str_digits
                        (too_many_digits default_max_str_digits)
                        "data.h5" "temps" 2)
                     closed_session)))%nat
  ∧ ∃ v : pyval, Returned (exn := pyexn) (PyCreated "id_0" 2) = Returned v.
Proof.
  assert (H0 : trace (run session_handle
                        (read_hdf5_limited default_max_str_digits
                           (too_many_digits default_max_str_digits)
                           "data.h5" "temps" 2)
                        closed_session) !! 0%nat
               = Some (GenericMsg "readSingleHdfArray2D"
                         {[ "dset" := "temps"; "filename" := "data.h5" ]},
                       Returned (PyCreated "id_0" 2)))
    by (vm_compute; reflexivity).
  assert (H1 : (1 < length
                      (trace (run session_handle
                                (read_hdf5_limited default_max_str_digits
                                   (too_many_digits default_max_str_digits)
                                   "data.h5" "temps" 2)
                                closed_session)))%nat)
    by (vm_compute; lia).
  split; [exact H0|]. split; [exact H1|].
  exact (proj2 (proj2 (read_hdf5_call_order session_handle
                         default_max_str_digits
                         (too_many_digits default_max_str_digits)
                         "data.h5" "temps" 2 closed_session)) _ _ _ H0 H1).
Defined.



(** X4 for the same listing in two sessions. *)
Lemma lshdf_request_distinct_witness :
  submitted (trace (run session_handle (lshdf "data.h5") demo_session))
  = submitted (trace (run session_handle (lshdf "data.h5") closed_session))
  ∧ "data.h5" = "data.h5".
Proof.
  assert (H : submitted
                (trace (run session_handle (lshdf "data.h5") demo_session))
              = submitted
                  (trace (run session_handle (lshdf "data.h5")
                            closed_session)))
    by (vm_compute; reflexivity).
  split; [exact H|].
  exact (proj1 (lshdf_request_distinct session_handle session_handle
                  "data.h5" "data.h5" "temps" 2 demo_session closed_session)
           H).
Defined.
